(** * demucs_wrapper.py: the command forwarder

    A shallow embedding of [src/demucs_wrapper.py] and of the pieces of the
    Python runtime it calls ([import], [torchaudio.set_audio_backend],
    list slicing and concatenation, [subprocess.run], the interpreter's exit
    status), followed by the properties of the forwarder.

    Strings are Rocq [string]s, that is sequences of 8-bit characters: the
    command-line arguments are carried as the bytes the operating system
    handed over.  Exit statuses and errno values are [Z]. *)

From Stdlib Require Import String List ZArith Bool Lia.
Import ListNotations.

Local Open Scope string_scope.
Local Open Scope list_scope.
Local Open Scope Z_scope.

(** ** Exceptions, the outside world and the log of steps *)

(** The exception classes that can end the script. *)
Inductive exn : Type :=
| ImportError (name : string)
| AttributeError (attr : string)
| RuntimeError (msg : string)
| IndexError
| OSError (errno : Z)
| CalledProcessError (returncode : Z) (cmd : list string).

(** [FileNotFoundError] is [OSError] with errno [ENOENT],
    [PermissionError] is [OSError] with errno [EACCES]. *)
Definition ENOENT : Z := 2.
Definition EACCES : Z := 13.
Definition FileNotFoundError : exn := OSError ENOENT.
Definition PermissionError : exn := OSError EACCES.

(** What becomes of a forked child that is asked to execute a program. *)
Inductive child : Type :=
| CannotStart (errno : Z)
| Exits (returncode : Z).

(** Everything the script does not control: the installed [torchaudio]
    (third-party code, which may be absent or may raise) and the operating
    system that looks the program up on [PATH] and runs it.  [None] means
    that the call returns normally. *)
Record world : Type := {
  import_torchaudio : option exn;
  set_audio_backend : string -> option exn;
  execvp : string -> list string -> child
}.

(** The steps a run performs, logged in the order they happen. *)
Inductive event : Type :=
| EImport (name : string)
| ESetAudioBackend (backend : string)
| EAssign (var : string) (value : list string)
| ESpawn (file : string) (argv : list string)
| EWait (returncode : Z).

(** ** A monad for world, log and exceptions *)

Definition M (E A : Type) : Type := world -> list event -> (E + A) * list event.

Definition ret {E A} (a : A) : M E A := fun _ log => (inr a, log).

Definition bind {E A B} (m : M E A) (k : A -> M E B) : M E B :=
  fun w log =>
    match m w log with
    | (inl e, log') => (inl e, log')
    | (inr a, log') => k a w log'
    end.

Definition raise {E A} (e : E) : M E A := fun _ log => (inl e, log).

Definition emit {E} (ev : event) : M E unit := fun _ log => (inr tt, log ++ [ev]).

Definition ask {E A} (f : world -> A) : M E A := fun w log => (inr (f w), log).

Declare Scope py_scope.
Delimit Scope py_scope with py.
Notation "x <- c ;; k" := (bind c (fun x => k))
  (at level 100, c at next level, right associativity) : py_scope.
Notation "c ;; k" := (bind c (fun _ => k))
  (at level 100, right associativity) : py_scope.
Local Open Scope py_scope.

(** An exception that leaves a module-level statement carries the line of
    that statement in its traceback. *)
Definition traceback : Type := (nat * exn)%type.

Definition line {A} (lineno : nat) (m : M exn A) : M traceback A :=
  fun w log =>
    match m w log with
    | (inl e, log') => (inl (lineno, e), log')
    | (inr a, log') => (inr a, log')
    end.

(** ** The runtime operations the script uses *)

(** [import name] of a third-party module: whatever the installed package
    does when it is loaded. *)
Definition import_site (name : string) (load : world -> option exn) : M exn unit :=
  r <- ask load ;;
  match r with
  | Some e => raise e
  | None => emit (EImport name)
  end.

(** [import name] of a standard-library module. *)
Definition import_std (name : string) : M exn unit := emit (EImport name).

(** [torchaudio.set_audio_backend(backend)]. *)
Definition torchaudio_set_audio_backend (backend : string) : M exn unit :=
  r <- ask (fun w => set_audio_backend w backend) ;;
  match r with
  | Some e => raise e
  | None => emit (ESetAudioBackend backend)
  end.

(** [l[n:]] *)
Definition slice_from {A} (n : nat) (l : list A) : list A := skipn n l.

(** [var = value] at module level. *)
Definition assign (var : string) (value : list string) : M exn (list string) :=
  emit (EAssign var value) ;; ret value.

Record Popen_obj : Type := { p_args : list string; p_status : Z }.

Record CompletedProcess : Type := { cp_args : list string; cp_returncode : Z }.

(** The argument vector [Popen] hands to the operating system: the list
    itself, or a shell in front of it when [shell=True]. *)
Definition exec_argv (shell : bool) (args : list string) : list string :=
  if shell then ["/bin/sh"; "-c"] ++ args else args.

(** [subprocess.Popen(args, shell=shell)]: fork a child that executes
    [args[0]] with the argument vector; an exec failure is reported back
    and raised as [OSError]. *)
Definition Popen (args : list string) (shell : bool) : M exn Popen_obj :=
  match exec_argv shell args with
  | [] => raise IndexError
  | file :: rest =>
      emit (ESpawn file (file :: rest)) ;;
      r <- ask (fun w => execvp w file (file :: rest)) ;;
      match r with
      | CannotStart errno => raise (OSError errno)
      | Exits rc => ret {| p_args := args; p_status := rc |}
      end
  end.

(** [process.communicate()] followed by [process.poll()]: block until the
    child is gone and return its status. *)
Definition communicate (p : Popen_obj) : M exn Z :=
  emit (EWait (p_status p)) ;; ret (p_status p).

(** [subprocess.run(args, check=check)] with every other parameter at its
    default (no shell, inherited streams, no timeout). *)
Definition subprocess_run (args : list string) (check : bool) : M exn CompletedProcess :=
  p <- Popen args false ;;
  retcode <- communicate p ;;
  if check && negb (retcode =? 0)
  then raise (CalledProcessError retcode (p_args p))
  else ret {| cp_args := p_args p; cp_returncode := retcode |}.

(** ** The script *)

(** Line 8, right-hand side: [["demucs"] + sys.argv[1:]]. *)
Definition cmd (sys_argv : list string) : list string :=
  ["demucs"] ++ slice_from 1 sys_argv.

Definition demucs_wrapper (sys_argv : list string) : M traceback unit :=
  line 1 (import_site "torchaudio" import_torchaudio) ;;
  line 2 (torchaudio_set_audio_backend "soundfile") ;;
  line 4 (import_std "sys") ;;
  line 5 (import_std "subprocess") ;;
  c <- line 8 (assign "cmd" (cmd sys_argv)) ;;
  line 9 (subprocess_run c true) ;;
  ret tt.

(** ** Running the script under the interpreter *)

Record run : Type := {
  outcome : traceback + unit;
  trace : list event
}.

(** [python demucs_wrapper.py a1 ... an] with [sys_argv] the script name
    followed by [a1 ... an]. *)
Definition python (sys_argv : list string) (w : world) : run :=
  let (r, log) := demucs_wrapper sys_argv w [] in
  {| outcome := r; trace := log |}.

(** The interpreter ends with status 0 when the script runs to its end
    and with status 1 when an exception is left uncaught. *)
Definition exit_status (r : run) : Z :=
  match outcome r with
  | inr _ => 0
  | inl _ => 1
  end.

(** ** Vocabulary of the properties *)

(** Both configuration steps (the import of [torchaudio] and the call of
    [set_audio_backend("soundfile")]) return. *)
Definition configured (w : world) : bool :=
  match import_torchaudio w, set_audio_backend w "soundfile" with
  | None, None => true
  | _, _ => false
  end.

(** The children of a run: program and argument vector of every spawn. *)
Fixpoint spawned (tr : list event) : list (string * list string) :=
  match tr with
  | [] => []
  | ESpawn file argv :: tr' => (file, argv) :: spawned tr'
  | _ :: tr' => spawned tr'
  end.

(** The backends selected during a run. *)
Fixpoint backends (tr : list event) : list string :=
  match tr with
  | [] => []
  | ESetAudioBackend b :: tr' => b :: backends tr'
  | _ :: tr' => backends tr'
  end.

(** The failure of the spawn step: the child cannot be started, or it
    exits with a non-zero status. *)
Definition tool_fails (w : world) (sys_argv : list string) : bool :=
  match execvp w "demucs" (cmd sys_argv) with
  | CannotStart _ => true
  | Exits rc => negb (rc =? 0)
  end.

(** [ProcessFailure]: the run ends with an exception of [subprocess.run]
    (line 9), which is [OSError] when the tool cannot be started and
    [CalledProcessError] when it exits with a non-zero status. *)
Definition ProcessFailure (r : run) : bool :=
  match outcome r with
  | inl (9%nat, OSError _) => true
  | inl (9%nat, CalledProcessError _ _) => true
  | _ => false
  end.

(** The place of a step in the order of the specification: configuration
    call, construction of the argument list, spawn, wait.  Imports are not
    ranked. *)
Definition rank (ev : event) : nat :=
  match ev with
  | EImport _ => 0
  | ESetAudioBackend _ => 1
  | EAssign _ _ => 2
  | ESpawn _ _ => 3
  | EWait _ => 4
  end.

(** The steps of the script up to the spawn, in program order. *)
Definition steps_to_spawn (sys_argv : list string) : list event :=
  [ EImport "torchaudio"; ESetAudioBackend "soundfile";
    EImport "sys"; EImport "subprocess";
    EAssign "cmd" (cmd sys_argv); ESpawn "demucs" (cmd sys_argv) ].

(** The wait, which only a started child reaches. *)
Definition wait_step (w : world) (sys_argv : list string) : list event :=
  match execvp w "demucs" (cmd sys_argv) with
  | CannotStart _ => []
  | Exits rc => [EWait rc]
  end.

Definition script_steps (w : world) (sys_argv : list string) : list event :=
  steps_to_spawn sys_argv ++ wait_step w sys_argv.

(** ** Sample worlds *)

(** [torchaudio] is installed with the backend, and the tool exits [rc]. *)
Definition tool_exits (rc : Z) : world :=
  {| import_torchaudio := None;
     set_audio_backend := fun _ => None;
     execvp := fun _ _ => Exits rc |}.

(** [demucs] is not on [PATH]. *)
Definition tool_missing : world :=
  {| import_torchaudio := None;
     set_audio_backend := fun _ => None;
     execvp := fun _ _ => CannotStart ENOENT |}.

(** A [torchaudio] whose [soundfile] backend is not available. *)
Definition backend_unavailable : world :=
  {| import_torchaudio := None;
     set_audio_backend := fun _ => Some (RuntimeError "Backend soundfile is not one of available backends");
     execvp := fun _ _ => Exits 0 |}.

(** [torchaudio] is not installed. *)
Definition torchaudio_missing : world :=
  {| import_torchaudio := Some (ImportError "torchaudio");
     set_audio_backend := fun _ => None;
     execvp := fun _ _ => Exits 0 |}.

(** Neither [torchaudio] nor [demucs] is installed. *)
Definition nothing_installed : world :=
  {| import_torchaudio := Some (ImportError "torchaudio");
     set_audio_backend := fun _ => None;
     execvp := fun _ _ => CannotStart ENOENT |}.

(** An installation that knows the [soundfile] backend only, on a machine
    where [demucs] is the only program that can be started. *)
Definition soundfile_and_demucs_only : world :=
  {| import_torchaudio := None;
     set_audio_backend := fun backend =>
       if String.eqb backend "soundfile" then None
       else Some (RuntimeError "Backend is not one of available backends");
     execvp := fun file _ =>
       if String.eqb file "demucs" then Exits 0 else CannotStart ENOENT |}.

Definition two_stems : list string :=
  ["demucs_wrapper.py"; "--two-stems=vocals"; "song.mp3"].

Definition awkward : list string :=
  ["my song.mp3"; "$(reboot)"; "a;b|c"; "it's"; "*"; ""].

(** Membership in a list that is known in full. *)
Ltac in_list := simpl; repeat first [left; reflexivity | right].

(** ** The run, case by case *)

Lemma python_cases (sys_argv : list string) (w : world) :
  python sys_argv w =
  match import_torchaudio w with
  | Some e => {| outcome := inl (1%nat, e); trace := [] |}
  | None =>
    match set_audio_backend w "soundfile" with
    | Some e => {| outcome := inl (2%nat, e); trace := [EImport "torchaudio"] |}
    | None =>
      match execvp w "demucs" (cmd sys_argv) with
      | CannotStart errno =>
          {| outcome := inl (9%nat, OSError errno);
             trace := steps_to_spawn sys_argv |}
      | Exits rc =>
          {| outcome := if rc =? 0 then inr tt
                        else inl (9%nat, CalledProcessError rc (cmd sys_argv));
             trace := steps_to_spawn sys_argv ++ [EWait rc] |}
      end
    end
  end.
Proof.
  unfold python, demucs_wrapper, bind, line, import_site,
    torchaudio_set_audio_backend, ask, bind; simpl.
  destruct (import_torchaudio w) as [e|]; [reflexivity|]; simpl.
  destruct (set_audio_backend w "soundfile") as [e|]; [reflexivity|]; simpl.
  unfold subprocess_run, Popen, communicate, assign, import_std, emit,
    ask, raise, ret, bind, steps_to_spawn; simpl.
  destruct (execvp w "demucs" _) as [errno|rc]; [reflexivity|]; simpl.
  destruct (rc =? 0); reflexivity.
Qed.

Example run_two_stems :
  python two_stems (tool_exits 0) =
  {| outcome := inr tt;
     trace := [ EImport "torchaudio"; ESetAudioBackend "soundfile";
                EImport "sys"; EImport "subprocess";
                EAssign "cmd" ["demucs"; "--two-stems=vocals"; "song.mp3"];
                ESpawn "demucs" ["demucs"; "--two-stems=vocals"; "song.mp3"];
                EWait 0 ] |}.
Proof. reflexivity. Qed.

Example run_tool_missing :
  python two_stems tool_missing =
  {| outcome := inl (9%nat, FileNotFoundError);
     trace := [ EImport "torchaudio"; ESetAudioBackend "soundfile";
                EImport "sys"; EImport "subprocess";
                EAssign "cmd" ["demucs"; "--two-stems=vocals"; "song.mp3"];
                ESpawn "demucs" ["demucs"; "--two-stems=vocals"; "song.mp3"] ] |}.
Proof. reflexivity. Qed.

Example run_tool_exits_2 :
  python two_stems (tool_exits 2) =
  {| outcome := inl (9%nat, CalledProcessError 2 ["demucs"; "--two-stems=vocals"; "song.mp3"]);
     trace := [ EImport "torchaudio"; ESetAudioBackend "soundfile";
                EImport "sys"; EImport "subprocess";
                EAssign "cmd" ["demucs"; "--two-stems=vocals"; "song.mp3"];
                ESpawn "demucs" ["demucs"; "--two-stems=vocals"; "song.mp3"];
                EWait 2 ] |}.
Proof. reflexivity. Qed.

Example run_backend_unavailable :
  python two_stems backend_unavailable =
  {| outcome := inl (2%nat, RuntimeError "Backend soundfile is not one of available backends");
     trace := [ EImport "torchaudio" ] |}.
Proof. reflexivity. Qed.

(** With [shell=True] the same list would be handed to a shell; the
    script does not ask for one. *)
Example exec_argv_shell :
  exec_argv true ["demucs"; "$(reboot)"] = ["/bin/sh"; "-c"; "demucs"; "$(reboot)"]
  /\ exec_argv false ["demucs"; "$(reboot)"] = ["demucs"; "$(reboot)"].
Proof. split; reflexivity. Qed.

Example run_torchaudio_missing :
  python two_stems torchaudio_missing =
  {| outcome := inl (1%nat, ImportError "torchaudio"); trace := [] |}.
Proof. reflexivity. Qed.

(** ** Shared facts about runs *)

Lemma cmd_cons (script : string) (A : list string) :
  cmd (script :: A) = "demucs" :: A.
Proof. reflexivity. Qed.

(** A run whose configuration steps return performs every step of the
    script, and its outcome is decided by the child alone. *)
Lemma python_configured (sys_argv : list string) (w : world) :
  configured w = true ->
  trace (python sys_argv w) = script_steps w sys_argv
  /\ outcome (python sys_argv w) =
     match execvp w "demucs" (cmd sys_argv) with
     | CannotStart errno => inl (9%nat, OSError errno)
     | Exits rc => if rc =? 0 then inr tt
                   else inl (9%nat, CalledProcessError rc (cmd sys_argv))
     end.
Proof.
  unfold configured, script_steps, wait_step. rewrite python_cases.
  destruct (import_torchaudio w); [discriminate|].
  destruct (set_audio_backend w "soundfile"); [discriminate|].
  intros _. destruct (execvp w "demucs" (cmd sys_argv)); simpl.
  - split; reflexivity.
  - split; reflexivity.
Qed.

(** A run one of whose configuration steps raises stops there, before
    line 8. *)
Lemma python_unconfigured (sys_argv : list string) (w : world) :
  configured w = false ->
  exists (l : nat) (e : exn),
    outcome (python sys_argv w) = inl (l, e)
    /\ ((l = 1%nat /\ import_torchaudio w = Some e
         /\ trace (python sys_argv w) = [])
        \/ (l = 2%nat /\ import_torchaudio w = None
            /\ set_audio_backend w "soundfile" = Some e
            /\ trace (python sys_argv w) = [EImport "torchaudio"])).
Proof.
  unfold configured. rewrite python_cases.
  destruct (import_torchaudio w) as [e|].
  - intros _. exists 1%nat, e. simpl. split; [reflexivity|]. left. auto.
  - destruct (set_audio_backend w "soundfile") as [e|]; [|discriminate].
    intros _. exists 2%nat, e. simpl. split; [reflexivity|]. right. auto.
Qed.

(** The child is waited for only in a configured run, and the status the
    wait returns is the one the child exits with. *)
Lemma wait_inv (sys_argv : list string) (w : world) (N : Z) :
  In (EWait N) (trace (python sys_argv w)) ->
  configured w = true /\ execvp w "demucs" (cmd sys_argv) = Exits N.
Proof.
  destruct (configured w) eqn:Hc.
  - destruct (python_configured sys_argv w Hc) as [Ht _]. rewrite Ht.
    unfold script_steps, wait_step, steps_to_spawn.
    destruct (execvp w "demucs" (cmd sys_argv)) as [errno|rc]; simpl; intros H.
    + repeat (destruct H as [H|H]; [discriminate H|]). contradiction.
    + repeat (destruct H as [H|H]; [try discriminate H|]); [|contradiction].
      injection H as ->. auto.
  - destruct (python_unconfigured sys_argv w Hc) as (l & e & _ & [H|H]).
    + destruct H as (_ & _ & ->). simpl. contradiction.
    + destruct H as (_ & _ & _ & ->). simpl. intros [H|[]]. discriminate H.
Qed.

(** A child is spawned only in a configured run, and then as [demucs]
    with the argument list of line 8. *)
Lemma spawn_inv (sys_argv : list string) (w : world) (file : string) (argv : list string) :
  In (ESpawn file argv) (trace (python sys_argv w)) ->
  configured w = true /\ file = "demucs" /\ argv = cmd sys_argv.
Proof.
  destruct (configured w) eqn:Hc.
  - destruct (python_configured sys_argv w Hc) as [Ht _]. rewrite Ht.
    unfold script_steps, wait_step, steps_to_spawn.
    destruct (execvp w "demucs" (cmd sys_argv)) as [errno|rc]; simpl; intros H;
      repeat (destruct H as [H|H]; [try discriminate H|]); try contradiction;
      injection H as <- <-; auto.
  - destruct (python_unconfigured sys_argv w Hc) as (l & e & _ & [H|H]).
    + destruct H as (_ & _ & ->). simpl. contradiction.
    + destruct H as (_ & _ & _ & ->). simpl. intros [H|[]]. discriminate H.
Qed.

Lemma spawned_app (tr1 tr2 : list event) :
  spawned (tr1 ++ tr2) = spawned tr1 ++ spawned tr2.
Proof.
  induction tr1 as [|ev tr1 IH]; simpl; [reflexivity|].
  destruct ev; simpl; rewrite IH; reflexivity.
Qed.


Lemma spawned_script_steps (w : world) (sys_argv : list string) :
  spawned (script_steps w sys_argv) = [("demucs", cmd sys_argv)].
Proof.
  unfold script_steps, wait_step. rewrite spawned_app.
  destruct (execvp w "demucs" (cmd sys_argv)); reflexivity.
Qed.


(** The children of a run, in every world. *)
Lemma spawned_python (sys_argv : list string) (w : world) :
  spawned (trace (python sys_argv w)) =
  if configured w then [("demucs", cmd sys_argv)] else [].
Proof.
  destruct (configured w) eqn:Hc.
  - destruct (python_configured sys_argv w Hc) as [-> _].
    apply spawned_script_steps.
  - destruct (python_unconfigured sys_argv w Hc) as (l & e & _ & [H|H]).
    + destruct H as (_ & _ & ->). reflexivity.
    + destruct H as (_ & _ & _ & ->). reflexivity.
Qed.


(** Once the child has been waited for, its status alone decides how the
    script ends: [check=True] turns every non-zero status into a
    [CalledProcessError]. *)
Lemma outcome_after_wait (sys_argv : list string) (w : world) (N : Z) :
  In (EWait N) (trace (python sys_argv w)) ->
  outcome (python sys_argv w) =
  if N =? 0 then inr tt else inl (9%nat, CalledProcessError N (cmd sys_argv)).
Proof.
  intros H. destruct (wait_inv _ _ _ H) as [Hc Hx].
  destruct (python_configured sys_argv w Hc) as [_ Ho].
  rewrite Ho, Hx. reflexivity.
Qed.

Lemma exit_status_after_wait (sys_argv : list string) (w : world) (N : Z) :
  In (EWait N) (trace (python sys_argv w)) ->
  exit_status (python sys_argv w) = if N =? 0 then 0 else 1.
Proof.
  intros H. unfold exit_status. rewrite (outcome_after_wait _ _ _ H).
  destruct (N =? 0); reflexivity.
Qed.

(** * Properties of the forwarder *)

(** C1. For every argument sequence [A] on the command line (so that
    [sys.argv] is the script name followed by [A]), the argument list built
    on line 8 is ["demucs"] followed by [A], in the same order, nothing
    added, dropped or changed, and that list is the argument vector of the
    child the run spawns (the only child; a run whose configuration step
    raises spawns none).  For [--two-stems=vocals song.mp3] the child is
    [demucs --two-stems=vocals song.mp3] and the forwarder exits 0 when it
    succeeds; for no arguments the child is [demucs] alone. *)
Theorem child_argument_list (script : string) (A : list string) (w : world) :
  cmd (script :: A) = "demucs" :: A
  /\ spawned (trace (python (script :: A) w)) =
     (if configured w then [("demucs", "demucs" :: A)] else [])
  /\ spawned (trace (python two_stems (tool_exits 0))) =
     [("demucs", ["demucs"; "--two-stems=vocals"; "song.mp3"])]
  /\ exit_status (python two_stems (tool_exits 0)) = 0
  /\ (forall rc, spawned (trace (python ["demucs_wrapper.py"] (tool_exits rc))) =
                 [("demucs", ["demucs"])]).
Proof.
  split; [reflexivity|].
  split; [rewrite spawned_python; reflexivity|].
  split; [reflexivity|].
  split; [reflexivity|].
  intros rc. rewrite spawned_python. reflexivity.
Qed.

(** C2 (as amended). When the external program terminates with exit
    status [N], the forwarder's own exit status is 0 if [N] is 0 and 1
    otherwise: the [CalledProcessError] that [check=True] raises is left
    uncaught.  It equals [N] exactly for [N] in {0, 1}. *)
Theorem exit_status_of_child_status (sys_argv : list string) (w : world) (N : Z) :
  In (EWait N) (trace (python sys_argv w)) ->
  exit_status (python sys_argv w) = (if N =? 0 then 0 else 1)
  /\ (exit_status (python sys_argv w) = N <-> N = 0 \/ N = 1).
Proof.
  intros H. rewrite (exit_status_after_wait _ _ _ H).
  split; [reflexivity|].
  destruct (Z.eqb_spec N 0); lia.
Qed.

Lemma exit_status_of_child_status_witness :
  In (EWait 2) (trace (python two_stems (tool_exits 2)))
  /\ exit_status (python two_stems (tool_exits 2)) = 1
  /\ (exit_status (python two_stems (tool_exits 2)) = 2 <-> 2 = 0 \/ 2 = 1).
Proof.
  split; [in_list|].
  apply (exit_status_of_child_status two_stems (tool_exits 2) 2). in_list.
Defined.

(** C2 as stated fails: the tool exits with status 2 and the forwarder
    with status 1. *)
Lemma exit_status_differs_from_child_status :
  In (EWait 2) (trace (python two_stems (tool_exits 2)))
  /\ exit_status (python two_stems (tool_exits 2)) = 1
  /\ exit_status (python two_stems (tool_exits 2)) <> 2.
Proof.
  split; [in_list|]. split; [reflexivity|]. discriminate.
Qed.

(** C3. When the external tool exits with a non-zero status [N], the
    forwarder exits with a non-zero status. *)
Theorem nonzero_child_status_fails (sys_argv : list string) (w : world) (N : Z) :
  In (EWait N) (trace (python sys_argv w)) ->
  N <> 0 ->
  exit_status (python sys_argv w) <> 0.
Proof.
  intros H HN. rewrite (exit_status_after_wait _ _ _ H).
  destruct (Z.eqb_spec N 0); [contradiction|discriminate].
Qed.

Lemma nonzero_child_status_fails_witness :
  In (EWait 2) (trace (python two_stems (tool_exits 2)))
  /\ 2 <> 0
  /\ exit_status (python two_stems (tool_exits 2)) <> 0.
Proof.
  split; [in_list|]. split; [discriminate|].
  apply (nonzero_child_status_fails two_stems (tool_exits 2) 2);
    [in_list|discriminate].
Defined.

(** C4 (as amended). When the external tool cannot be located or started
    (the exec fails with some errno, [ENOENT] for a program that is not on
    [PATH]), the forwarder exits with a non-zero status.  If the import of
    [torchaudio] and the backend call return, the error that ends it is the
    [OSError] of [subprocess.run] on line 9, a [ProcessFailure]; if one of
    them raises, the forwarder ends with that error on line 1 or 2 instead,
    which is not a [ProcessFailure], and has not tried to start the tool. *)
Theorem tool_cannot_start (sys_argv : list string) (w : world) (errno : Z) :
  execvp w "demucs" (cmd sys_argv) = CannotStart errno ->
  exit_status (python sys_argv w) <> 0
  /\ outcome (python sys_argv w) =
     match import_torchaudio w with
     | Some e => inl (1%nat, e)
     | None =>
       match set_audio_backend w "soundfile" with
       | Some e => inl (2%nat, e)
       | None => inl (9%nat, OSError errno)
       end
     end
  /\ ProcessFailure (python sys_argv w) = configured w
  /\ spawned (trace (python sys_argv w)) =
     (if configured w then [("demucs", cmd sys_argv)] else []).
Proof.
  intros Hx. split; [|split; [|split; [|apply spawned_python]]].
  - unfold exit_status. rewrite python_cases, Hx.
    destruct (import_torchaudio w); [discriminate|].
    destruct (set_audio_backend w "soundfile"); discriminate.
  - rewrite python_cases, Hx.
    destruct (import_torchaudio w); [reflexivity|].
    destruct (set_audio_backend w "soundfile"); reflexivity.
  - unfold ProcessFailure, configured. rewrite python_cases, Hx.
    destruct (import_torchaudio w); [reflexivity|].
    destruct (set_audio_backend w "soundfile"); reflexivity.
Qed.

Lemma tool_cannot_start_witness :
  execvp tool_missing "demucs" (cmd two_stems) = CannotStart ENOENT
  /\ exit_status (python two_stems tool_missing) <> 0
  /\ outcome (python two_stems tool_missing) = inl (9%nat, OSError ENOENT)
  /\ ProcessFailure (python two_stems tool_missing) = true
  /\ spawned (trace (python two_stems tool_missing)) =
     [("demucs", ["demucs"; "--two-stems=vocals"; "song.mp3"])].
Proof.
  split; [reflexivity|].
  apply (tool_cannot_start two_stems tool_missing ENOENT). reflexivity.
Defined.

(** C4 as stated fails: with neither [torchaudio] nor [demucs] installed
    the tool cannot be located, and the forwarder ends with the
    [ImportError] of line 1, which is not a [ProcessFailure]. *)
Lemma missing_tool_behind_missing_torchaudio :
  execvp nothing_installed "demucs" (cmd two_stems) = CannotStart ENOENT
  /\ outcome (python two_stems nothing_installed) =
     inl (1%nat, ImportError "torchaudio")
  /\ ProcessFailure (python two_stems nothing_installed) = false.
Proof. split; [reflexivity|]. split; reflexivity. Qed.

(** C5 (as amended). The two failure conditions of the spawn step, the
    tool cannot be started and the tool exits with a non-zero status, are
    exactly the runs that end in a [ProcessFailure].  The forwarder also
    surfaces, as errors that are not a [ProcessFailure], whatever the import
    of [torchaudio] (line 1) or the backend configuration call (line 2)
    raises; it surfaces nothing else, and a run without error is a
    configured run whose tool exits with status 0. *)
Theorem error_kinds_of_the_forwarder (sys_argv : list string) (w : world) :
  ProcessFailure (python sys_argv w) = configured w && tool_fails w sys_argv
  /\ match outcome (python sys_argv w) with
     | inr _ => configured w = true /\ tool_fails w sys_argv = false
     | inl (l, e) =>
         (ProcessFailure (python sys_argv w) = true /\ l = 9%nat
          /\ ((exists errno : Z,
                 e = OSError errno
                 /\ execvp w "demucs" (cmd sys_argv) = CannotStart errno)
              \/ (exists rc : Z,
                    e = CalledProcessError rc (cmd sys_argv) /\ rc <> 0
                    /\ execvp w "demucs" (cmd sys_argv) = Exits rc)))
         \/ (ProcessFailure (python sys_argv w) = false
             /\ l = 1%nat /\ import_torchaudio w = Some e)
         \/ (ProcessFailure (python sys_argv w) = false
             /\ l = 2%nat /\ set_audio_backend w "soundfile" = Some e)
     end.
Proof.
  destruct (configured w) eqn:Hc.
  - destruct (python_configured sys_argv w Hc) as [_ Ho].
    unfold ProcessFailure, tool_fails. rewrite Ho.
    destruct (execvp w "demucs" (cmd sys_argv)) as [errno|rc]; simpl.
    + split; [reflexivity|]. left. split; [reflexivity|]. split; [reflexivity|].
      left. exists errno. split; reflexivity.
    + destruct (Z.eqb_spec rc 0) as [Hrc|Hrc]; simpl.
      * split; [reflexivity|]. split; reflexivity.
      * split; [reflexivity|]. left. split; [reflexivity|]. split; [reflexivity|].
        right. exists rc. split; [reflexivity|]. split; [exact Hrc|reflexivity].
  - destruct (python_unconfigured sys_argv w Hc) as (l & e & Ho & H).
    unfold ProcessFailure. rewrite Ho. simpl.
    destruct H as [(-> & Hi & _)|(-> & _ & Hs & _)].
    + split; [reflexivity|]. right. left. auto.
    + split; [reflexivity|]. right. right. auto.
Qed.

(** C5 as stated fails: with a [torchaudio] whose [soundfile] backend is
    unavailable the forwarder surfaces the [RuntimeError] of line 2, which
    is not a [ProcessFailure]. *)
Lemma configuration_error_is_another_kind :
  outcome (python two_stems backend_unavailable) =
    inl (2%nat, RuntimeError "Backend soundfile is not one of available backends")
  /\ ProcessFailure (python two_stems backend_unavailable) = false.
Proof. split; reflexivity. Qed.

(** C6. When the external tool exits with status 0, the forwarder raises
    no error and exits with status 0. *)
Theorem zero_child_status_succeeds (sys_argv : list string) (w : world) :
  In (EWait 0) (trace (python sys_argv w)) ->
  outcome (python sys_argv w) = inr tt
  /\ exit_status (python sys_argv w) = 0.
Proof.
  intros H. unfold exit_status. rewrite (outcome_after_wait _ _ _ H).
  split; reflexivity.
Qed.

Lemma zero_child_status_succeeds_witness :
  In (EWait 0) (trace (python two_stems (tool_exits 0)))
  /\ outcome (python two_stems (tool_exits 0)) = inr tt
  /\ exit_status (python two_stems (tool_exits 0)) = 0.
Proof.
  split; [in_list|].
  apply (zero_child_status_succeeds two_stems (tool_exits 0)). in_list.
Defined.

Lemma firstn_script_steps (w : world) (sys_argv : list string) (k : nat)
    (i j : nat) (a b : event) :
  nth_error (firstn k (script_steps w sys_argv)) i = Some a ->
  nth_error (firstn k (script_steps w sys_argv)) j = Some b ->
  (0 < rank a)%nat -> (rank a < rank b)%nat -> (i < j)%nat.
Proof.
  unfold script_steps, wait_step, steps_to_spawn.
  destruct (execvp w "demucs" (cmd sys_argv)) as [errno|rc]; simpl;
    do 8 (try destruct k as [|k]); simpl;
    do 8 (try destruct i as [|i]); simpl;
    do 8 (try destruct j as [|j]); simpl;
    intros Ha Hb; try discriminate Ha; try discriminate Hb;
    injection Ha as <-; injection Hb as <-; simpl; lia.
Qed.

(** Every run performs an initial segment of the script's steps. *)
Lemma trace_is_prefix (sys_argv : list string) (w : world) :
  exists k : nat, trace (python sys_argv w) = firstn k (script_steps w sys_argv).
Proof.
  destruct (configured w) eqn:Hc.
  - destruct (python_configured sys_argv w Hc) as [-> _].
    exists (length (script_steps w sys_argv)). symmetry. apply firstn_all.
  - destruct (python_unconfigured sys_argv w Hc) as (l & e & _ & [H|H]).
    + destruct H as (_ & _ & ->). exists 0%nat. reflexivity.
    + destruct H as (_ & _ & _ & ->). exists 1%nat. reflexivity.
Qed.

(** C7. In every execution the steps occur in the fixed order of the
    script: import torchaudio, configuration call, import sys, import
    subprocess, construction of the argument list, spawn, wait.  A run in
    which the import raises performs none of them, one in which the
    configuration call raises performs the import only, and every other
    run performs all of them up to the spawn and then waits for the child
    (a child that cannot be started leaves nothing to wait for: line 9
    raises at the spawn).  In particular a step of lower rank
    (configuration, then construction, then spawn, then wait) always
    stands before one of higher rank, so the configuration call never
    comes after the spawn. *)
Theorem steps_in_program_order (sys_argv : list string) (w : world) :
  trace (python sys_argv w) =
    match import_torchaudio w with
    | Some _ => []
    | None =>
      match set_audio_backend w "soundfile" with
      | Some _ => [ EImport "torchaudio" ]
      | None =>
          [ EImport "torchaudio"; ESetAudioBackend "soundfile";
            EImport "sys"; EImport "subprocess";
            EAssign "cmd" (cmd sys_argv); ESpawn "demucs" (cmd sys_argv) ]
          ++ match execvp w "demucs" (cmd sys_argv) with
             | CannotStart _ => []
             | Exits rc => [ EWait rc ]
             end
      end
    end
  /\ (forall (i j : nat) (a b : event),
        nth_error (trace (python sys_argv w)) i = Some a ->
        nth_error (trace (python sys_argv w)) j = Some b ->
        (0 < rank a)%nat -> (rank a < rank b)%nat -> (i < j)%nat)
  /\ (forall (i j : nat) (backend file : string) (argv : list string),
        nth_error (trace (python sys_argv w)) i = Some (ESpawn file argv) ->
        nth_error (trace (python sys_argv w)) j = Some (ESetAudioBackend backend) ->
        (j < i)%nat)
  /\ (forall (i : nat) (file : string) (argv : list string) (rc : Z),
        nth_error (trace (python sys_argv w)) i = Some (ESpawn file argv) ->
        execvp w "demucs" (cmd sys_argv) = Exits rc ->
        nth_error (trace (python sys_argv w)) (S i) = Some (EWait rc)
        /\ length (trace (python sys_argv w)) = S (S i)).
Proof.
  assert (Hrank : forall (i j : nat) (a b : event),
        nth_error (trace (python sys_argv w)) i = Some a ->
        nth_error (trace (python sys_argv w)) j = Some b ->
        (0 < rank a)%nat -> (rank a < rank b)%nat -> (i < j)%nat).
  { destruct (trace_is_prefix sys_argv w) as [k ->].
    intros i j a b. apply firstn_script_steps. }
  split; [|split; [|split]].
  - rewrite python_cases.
    destruct (import_torchaudio w); [reflexivity|].
    destruct (set_audio_backend w "soundfile"); [reflexivity|].
    destruct (execvp w "demucs" (cmd sys_argv)); simpl; reflexivity.
  - exact Hrank.
  - intros i j backend file argv Hi Hj.
    apply (Hrank j i _ _ Hj Hi); simpl; lia.
  - intros i file argv rc Hi Hx. revert Hi.
    rewrite python_cases, Hx.
    destruct (import_torchaudio w); [destruct i; discriminate|].
    destruct (set_audio_backend w "soundfile");
      [destruct i as [|[|i]]; discriminate|].
    simpl.
    do 7 (try destruct i as [|i]); simpl; intros Hi;
      try discriminate Hi; [split; reflexivity|].
    destruct i; discriminate Hi.
Qed.



(** C9. The command is handed to the operating system as an argument
    list, without a shell: a child of the run executes [demucs] itself,
    its argument vector has one entry per caller-supplied argument after
    the program name, and entry [i + 1] is the [i]-th argument, character
    for character, whatever it contains. *)
Theorem arguments_reach_the_tool_verbatim
    (script : string) (A : list string) (w : world)
    (file : string) (argv : list string) :
  In (ESpawn file argv) (trace (python (script :: A) w)) ->
  file = "demucs"
  /\ argv = exec_argv false ("demucs" :: A)
  /\ length argv = S (length A)
  /\ (forall i : nat, nth_error argv (S i) = nth_error A i).
Proof.
  intros H. destruct (spawn_inv _ _ _ _ H) as (_ & -> & ->).
  rewrite cmd_cons. simpl. auto.
Qed.

Lemma arguments_reach_the_tool_verbatim_witness :
  In (ESpawn "demucs" ("demucs" :: awkward))
     (trace (python ("demucs_wrapper.py" :: awkward) (tool_exits 0)))
  /\ "demucs" = "demucs"
  /\ "demucs" :: awkward = exec_argv false ("demucs" :: awkward)
  /\ length ("demucs" :: awkward) = S (length awkward)
  /\ (forall i : nat, nth_error ("demucs" :: awkward) (S i) = nth_error awkward i).
Proof.
  split; [in_list|].
  apply (arguments_reach_the_tool_verbatim "demucs_wrapper.py" awkward (tool_exits 0)).
  in_list.
Defined.

(** C10. If the backend configuration call raises, the run ends there, on
    line 2, with that exception: the log holds the import of [torchaudio]
    and nothing else, so the argument list is never built and no child
    process is spawned, and the forwarder exits with status 1. *)
Theorem configuration_failure_stops_the_run
    (sys_argv : list string) (w : world) (e : exn) :
  import_torchaudio w = None ->
  set_audio_backend w "soundfile" = Some e ->
  outcome (python sys_argv w) = inl (2%nat, e)
  /\ trace (python sys_argv w) = [EImport "torchaudio"]
  /\ (forall (var : string) (value : list string),
        ~ In (EAssign var value) (trace (python sys_argv w)))
  /\ spawned (trace (python sys_argv w)) = []
  /\ exit_status (python sys_argv w) = 1.
Proof.
  intros Hi Hs. unfold exit_status. rewrite python_cases, Hi, Hs. simpl.
  split; [reflexivity|]. split; [reflexivity|].
  split; [intros var value [H|[]]; discriminate H|].
  split; reflexivity.
Qed.

Lemma configuration_failure_stops_the_run_witness :
  import_torchaudio backend_unavailable = None
  /\ set_audio_backend backend_unavailable "soundfile" =
     Some (RuntimeError "Backend soundfile is not one of available backends")
  /\ outcome (python two_stems backend_unavailable) =
     inl (2%nat, RuntimeError "Backend soundfile is not one of available backends")
  /\ trace (python two_stems backend_unavailable) = [EImport "torchaudio"]
  /\ (forall (var : string) (value : list string),
        ~ In (EAssign var value) (trace (python two_stems backend_unavailable)))
  /\ spawned (trace (python two_stems backend_unavailable)) = []
  /\ exit_status (python two_stems backend_unavailable) = 1.
Proof.
  split; [reflexivity|]. split; [reflexivity|].
  apply (configuration_failure_stops_the_run two_stems backend_unavailable);
    reflexivity.
Defined.

(** * Further properties of the script *)

Lemma cmd_tl (sys_argv : list string) : cmd sys_argv = "demucs" :: tl sys_argv.
Proof. destruct sys_argv; reflexivity. Qed.

(** X1. If [import torchaudio] on line 1 raises, the run ends there with
    that exception and exit status 1, having done nothing: the backend is
    never selected, the argument list is never built and no child process
    is spawned or waited for. *)
Theorem import_failure_stops_the_run
    (sys_argv : list string) (w : world) (e : exn) :
  import_torchaudio w = Some e ->
  outcome (python sys_argv w) = inl (1%nat, e)
  /\ trace (python sys_argv w) = []
  /\ backends (trace (python sys_argv w)) = []
  /\ spawned (trace (python sys_argv w)) = []
  /\ exit_status (python sys_argv w) = 1.
Proof.
  intros Hi. unfold exit_status. rewrite python_cases, Hi. simpl.
  repeat split; reflexivity.
Qed.

Lemma import_failure_stops_the_run_witness :
  import_torchaudio torchaudio_missing = Some (ImportError "torchaudio")
  /\ outcome (python two_stems torchaudio_missing) =
     inl (1%nat, ImportError "torchaudio")
  /\ trace (python two_stems torchaudio_missing) = []
  /\ backends (trace (python two_stems torchaudio_missing)) = []
  /\ spawned (trace (python two_stems torchaudio_missing)) = []
  /\ exit_status (python two_stems torchaudio_missing) = 1.
Proof.
  split; [reflexivity|].
  apply (import_failure_stops_the_run two_stems torchaudio_missing).
  reflexivity.
Defined.

(** X2. The forwarder exits with status 0 exactly when both configuration
    steps return and the tool, started as [demucs] with the argument list
    of line 8, exits with status 0: it never reports success for a tool
    that did not run or did not succeed. *)
Theorem success_iff_tool_succeeded (sys_argv : list string) (w : world) :
  exit_status (python sys_argv w) = 0 <->
  configured w = true /\ execvp w "demucs" (cmd sys_argv) = Exits 0.
Proof.
  unfold exit_status. destruct (configured w) eqn:Hc.
  - destruct (python_configured sys_argv w Hc) as [_ ->].
    destruct (execvp w "demucs" (cmd sys_argv)) as [errno|rc].
    + split; [discriminate|]. intros [_ H]. discriminate H.
    + destruct (Z.eqb_spec rc 0) as [Hrc|Hrc].
      * subst rc. split; auto.
      * split; [discriminate|]. intros [_ H]. injection H as H. contradiction.
  - destruct (python_unconfigured sys_argv w Hc) as (l & e & -> & _).
    split; [discriminate|]. intros [H _]. discriminate H.
Qed.

(** X3. When the tool exits with a non-zero status [N], the exception
    that ends the script on line 9 is a [CalledProcessError] that records
    [N] itself and the whole child command: the status is lost from the
    exit status of the forwarder, not from its diagnostic. *)
Theorem failure_records_status_and_command
    (sys_argv : list string) (w : world) (N : Z) :
  In (EWait N) (trace (python sys_argv w)) ->
  N <> 0 ->
  outcome (python sys_argv w) =
  inl (9%nat, CalledProcessError N ("demucs" :: tl sys_argv)).
Proof.
  intros H HN. rewrite (outcome_after_wait _ _ _ H), cmd_tl.
  destruct (Z.eqb_spec N 0); [contradiction|reflexivity].
Qed.

Lemma failure_records_status_and_command_witness :
  In (EWait 2) (trace (python two_stems (tool_exits 2)))
  /\ 2 <> 0
  /\ outcome (python two_stems (tool_exits 2)) =
     inl (9%nat, CalledProcessError 2 ("demucs" :: tl two_stems)).
Proof.
  split; [in_list|]. split; [discriminate|].
  apply (failure_records_status_and_command two_stems (tool_exits 2) 2);
    [in_list|discriminate].
Defined.

(** X4. A run consults the world in three places only: the import of
    [torchaudio], the selection of the [soundfile] backend, and the
    execution of [demucs] with the argument list of line 8.  Two worlds
    that agree there give the same run, whatever other backends they offer
    and whatever other programs they can start. *)
Theorem run_consults_three_things
    (sys_argv : list string) (w1 w2 : world) :
  import_torchaudio w1 = import_torchaudio w2 ->
  set_audio_backend w1 "soundfile" = set_audio_backend w2 "soundfile" ->
  execvp w1 "demucs" (cmd sys_argv) = execvp w2 "demucs" (cmd sys_argv) ->
  python sys_argv w1 = python sys_argv w2.
Proof.
  intros Hi Hs Hx. rewrite !python_cases, Hi, Hs, Hx. reflexivity.
Qed.

Lemma run_consults_three_things_witness :
  import_torchaudio (tool_exits 0) = import_torchaudio soundfile_and_demucs_only
  /\ set_audio_backend (tool_exits 0) "soundfile" =
     set_audio_backend soundfile_and_demucs_only "soundfile"
  /\ execvp (tool_exits 0) "demucs" (cmd two_stems) =
     execvp soundfile_and_demucs_only "demucs" (cmd two_stems)
  /\ python two_stems (tool_exits 0) = python two_stems soundfile_and_demucs_only.
Proof.
  split; [reflexivity|]. split; [reflexivity|]. split; [reflexivity|].
  apply (run_consults_three_things two_stems (tool_exits 0)
           soundfile_and_demucs_only); reflexivity.
Defined.

(** X5. The run depends on [sys.argv] only through [sys.argv[1:]]: the
    name under which the script was started is not forwarded and changes
    nothing, and an empty [sys.argv] behaves like one that holds the
    script name alone (the slice of line 8 does not raise). *)
Theorem run_ignores_script_name (argv1 argv2 : list string) (w : world) :
  tl argv1 = tl argv2 ->
  python argv1 w = python argv2 w.
Proof.
  intros H. rewrite !python_cases. unfold steps_to_spawn.
  rewrite !cmd_tl, H. reflexivity.
Qed.

Lemma run_ignores_script_name_witness :
  tl ([] : list string) = tl ["/opt/tools/demucs_wrapper.py"]
  /\ python [] tool_missing = python ["/opt/tools/demucs_wrapper.py"] tool_missing.
Proof.
  split; [reflexivity|].
  apply (run_ignores_script_name [] ["/opt/tools/demucs_wrapper.py"] tool_missing).
  reflexivity.
Defined.

(** X6. The forwarder waits for a child with status [N] exactly when both
    configuration steps return and [demucs], executed with the argument
    list of line 8, starts and exits with [N]: every child that starts is
    waited for, with its own status, and nothing is waited for
    otherwise. *)
Theorem wait_iff_tool_started (sys_argv : list string) (w : world) (N : Z) :
  In (EWait N) (trace (python sys_argv w)) <->
  configured w = true /\ execvp w "demucs" (cmd sys_argv) = Exits N.
Proof.
  split; [apply wait_inv|].
  intros [Hc Hx]. destruct (python_configured sys_argv w Hc) as [-> _].
  unfold script_steps, wait_step. rewrite Hx.
  apply in_or_app. right. left. reflexivity.
Qed.
